(** * getWithdrawalStatus (viem, OP Stack actions)

    A shallow embedding of
    [src/chains/opStack/actions/getWithdrawalStatus.ts] and the properties of
    the status it resolves.

    The function is an [async] function: it resolves the portal address,
    extracts the withdrawals of the receipt, issues four reads through the
    client, waits for all four to settle ([Promise.allSettled]) and then
    decides.  It is embedded in a small monad that threads the log of the
    reads issued so far and carries the completion (a returned value or a
    thrown one). *)

From Stdlib Require Import ZArith List String Bool Floats Lia.
Import ListNotations.

Local Open Scope string_scope.
Local Open Scope Z_scope.
#[local] Set Warnings "-register-all".

(** ** JavaScript data *)

Definition Hex := string.
Definition Address := string.

(** A JavaScript [number] is an IEEE 754 binary64 value. *)
Definition number := float.

(** Values of type [unknown], as the decoded arguments of a revert are. *)
Inductive JsValue : Type :=
| JsUndefined
| JsNull
| JsBoolean (b : bool)
| JsNumber (n : number)
| JsBigInt (z : Z)
| JsString (s : string)
| JsObject (ref : positive).

(** [v === s] for a string literal [s]; [None] stands for [undefined], the
    value an optional chain yields when it short-circuits. *)
Definition strict_eq_string (v : option JsValue) (s : string) : bool :=
  match v with
  | Some (JsString t) => String.eqb t s
  | _ => false
  end.

(** Truthiness of the two primitive types the function tests. *)
Definition truthy_string (s : string) : bool := negb (String.eqb s "").
Definition truthy_bigint (z : Z) : bool := negb (z =? 0).

(** ** Errors *)

Inductive ErrorClass : Type :=
| ContractFunctionRevertedError
| ContractFunctionExecutionError
| ContractFunctionZeroDataError
| HttpRequestError
| OtherError (name : string).

Definition ErrorClass_eqb (a b : ErrorClass) : bool :=
  match a, b with
  | ContractFunctionRevertedError, ContractFunctionRevertedError => true
  | ContractFunctionExecutionError, ContractFunctionExecutionError => true
  | ContractFunctionZeroDataError, ContractFunctionZeroDataError => true
  | HttpRequestError, HttpRequestError => true
  | OtherError n, OtherError m => String.eqb n m
  | _, _ => false
  end.

(** The [data] property of an error: [{ abiItem, args?, errorName }]; the
    ABI item is not inspected and is left out. *)
Record RevertData : Type := {
  errorName : string;
  args : option (list JsValue)
}.

(** An error object: its class, its message, its optional [data] and its
    optional [cause], itself an error object. *)
Inductive JsError : Type :=
| MkError (class : ErrorClass) (message : string)
          (data : option RevertData) (cause : option JsError).

Definition class (e : JsError) : ErrorClass :=
  let 'MkError c _ _ _ := e in c.
Definition message (e : JsError) : string :=
  let 'MkError _ m _ _ := e in m.
Definition data (e : JsError) : option RevertData :=
  let 'MkError _ _ d _ := e in d.
Definition cause (e : JsError) : option JsError :=
  let 'MkError _ _ _ c := e in c.

(** [v instanceof C], with [None] for [undefined]; no class of the model
    extends another, so the test on the prototype chain is a test of the
    class. *)
Definition instanceof (v : option JsError) (C : ErrorClass) : bool :=
  match v with
  | Some e => ErrorClass_eqb (class e) C
  | None => false
  end.

(** [e.data?.args?.[0]] *)
Definition data_args_0 (e : JsError) : option JsValue :=
  match data e with
  | Some d =>
      match args d with
      | Some l => nth_error l 0
      | None => None
      end
  | None => None
  end.

(** What the function can throw: the error it constructs itself, the
    [TypeError] of a property read on [undefined], and the rejection reason
    of a read, thrown as the very object the read rejected with.  The
    constructor [TypeError] is the one raised by the function's own property
    reads (lines 92-93); a read that rejects with a [TypeError] of its own
    has it rethrown as its [Reason]. *)
Inductive Thrown : Type :=
| New_ReceiptContainsNoWithdrawalsError (hash : Hex)
| TypeError
| Reason (reason : JsError).

Inductive Completion (A : Type) : Type :=
| Normal (a : A)
| Throw (e : Thrown).
Arguments Normal {A} a.
Arguments Throw {A} e.

(** An element of the array [Promise.allSettled] resolves to. *)
Inductive PromiseSettledResult (T : Type) : Type :=
| fulfilled (value : T)
| rejected (reason : JsError).
Arguments fulfilled {T} value.
Arguments rejected {T} reason.

(** ** Chains, receipts, parameters *)

Module Chain.
Record t : Type := { id : Z }.
End Chain.

Module ChainContract.
Record t : Type := { address : Address }.
End ChainContract.

(** [targetChain.contracts]: each contract is an object keyed by the id of
    the source chain; the association list holds its own properties in
    enumeration order, which is the order of [Object.values]. *)
Module TargetChain.
Record t : Type := {
  portal : list (Z * ChainContract.t);
  l2OutputOracle : list (Z * ChainContract.t)
}.
End TargetChain.

Record Log : Type := {
  log_address : Address;
  log_topics : list Hex;
  log_data : Hex
}.

Record TransactionReceipt : Type := {
  transactionHash : Hex;
  blockNumber : Z;
  logs : list Log
}.

Record Withdrawal : Type := {
  nonce : Z;
  sender : Address;
  target : Address;
  value : Z;
  gasLimit : Z;
  data_ : Hex;
  withdrawalHash : Hex
}.

Record Client : Type := { client_chain : option Chain.t }.

Record GetWithdrawalStatusParameters : Type := {
  chain : option Chain.t;
  receipt : TransactionReceipt;
  targetChain : option TargetChain.t;
  portalAddress : option Address;
  l2OutputOracleAddress : option Address
}.

(** [{ ...parameters, l2BlockNumber }] and [{ ...parameters, withdrawalHash }] *)
Record GetL2OutputParameters : Type := {
  l2o_parameters : GetWithdrawalStatusParameters;
  l2BlockNumber : Z
}.

Record GetTimeToFinalizeParameters : Type := {
  ttf_parameters : GetWithdrawalStatusParameters;
  ttf_withdrawalHash : Hex
}.

(** ** What the four reads return *)

Record GetL2OutputReturnType : Type := {
  outputIndex : Z;
  outputRoot : Hex;
  timestamp : Z;
  l2o_l2BlockNumber : Z
}.

Record GetTimeToFinalizeReturnType : Type := {
  period : number;
  seconds : number;
  ttf_timestamp : number
}.

(** The two functions of [portalAbi] the resolver reads, indexed by the type
    their result decodes to: [provenWithdrawals] returns the tuple
    [(bytes32 outputRoot, uint128 timestamp, uint128 l2OutputIndex)], decoded
    as [[Hex, bigint, bigint]]; [finalizedWithdrawals] returns a [bool]. *)
Inductive PortalFunction : Type -> Type :=
| provenWithdrawals : PortalFunction (Hex * Z * Z)
| finalizedWithdrawals : PortalFunction bool.

Definition functionName {T} (f : PortalFunction T) : string :=
  match f with
  | provenWithdrawals => "provenWithdrawals"
  | finalizedWithdrawals => "finalizedWithdrawals"
  end.

(** ** The monad of the embedding *)

(** A read issued through the client. *)
Inductive Call : Type :=
| Call_getL2Output (p : GetL2OutputParameters)
| Call_readContract (address : Address) (functionName : string) (arg0 : Hex)
| Call_getTimeToFinalize (p : GetTimeToFinalizeParameters).

Definition Async (A : Type) : Type := list Call -> Completion A * list Call.

Definition ret {A} (a : A) : Async A := fun log => (Normal a, log).

Definition throw {A} (e : Thrown) : Async A := fun log => (Throw e, log).

Definition bind {A B} (m : Async A) (k : A -> Async B) : Async B :=
  fun log =>
    match m log with
    | (Normal a, log') => k a log'
    | (Throw e, log') => (Throw e, log')
    end.

(** A synchronous computation that cannot issue a read. *)
Definition lift {A} (c : Completion A) : Async A := fun log => (c, log).

(** Issuing a read: the call is logged, and awaiting the promise (under
    [Promise.allSettled]) gives the way it settled. *)
Definition settle {T} (c : Call) (r : PromiseSettledResult T)
  : Async (PromiseSettledResult T) :=
  fun log => (Normal r, (log ++ [c])%list).

Declare Scope async_scope.
Delimit Scope async_scope with async.
Notation "x <- m ;; k" := (bind m (fun x => k))
  (at level 61, m at next level, right associativity) : async_scope.

(** ** Property lookup on the objects of [targetChain.contracts] *)

Fixpoint lookup (key : Z) (o : list (Z * ChainContract.t))
  : option ChainContract.t :=
  match o with
  | [] => None
  | (k, v) :: o' => if k =? key then Some v else lookup key o'
  end.

Definition Object_values (o : list (Z * ChainContract.t))
  : list ChainContract.t := map snd o.

(** ** The resolver *)

Section Resolver.

Local Open Scope async_scope.

(** The collaborators the file imports: [getWithdrawals]
    (utils/getWithdrawals.ts), [getL2Output], [readContract] and
    [getTimeToFinalize].  A read is given by the way its promise settles
    for the client and the arguments it is called with. *)
Variable getWithdrawals : TransactionReceipt -> list Withdrawal.
Variable getL2Output :
  Client -> GetL2OutputParameters ->
  PromiseSettledResult GetL2OutputReturnType.
Variable readContract :
  forall T : Type,
    Client -> Address -> PortalFunction T -> Hex -> PromiseSettledResult T.
Variable getTimeToFinalize :
  Client -> GetTimeToFinalizeParameters ->
  PromiseSettledResult GetTimeToFinalizeReturnType.

(** Lines 90-94, the function expression bound to [portalAddress]:
    [chain_] is [chain] after its default [client.chain].  Reading a
    property of [undefined] throws a [TypeError]. *)
Definition resolve_portalAddress
    (parameters : GetWithdrawalStatusParameters) (chain_ : option Chain.t)
  : Completion Address :=
  let fromTargetChain :=
    match chain_ with
    | Some c =>
        match targetChain parameters with
        | Some tc =>
            match lookup (Chain.id c) (TargetChain.portal tc) with
            | Some contract => Normal (ChainContract.address contract)
            | None => Throw TypeError
            end
        | None => Throw TypeError
        end
    | None =>
        match targetChain parameters with
        | Some tc =>
            match Object_values (TargetChain.portal tc) with
            | contract :: _ => Normal (ChainContract.address contract)
            | [] => Throw TypeError
            end
        | None => Throw TypeError
        end
    end in
  match portalAddress parameters with
  | Some a => if truthy_string a then Normal a else fromTargetChain
  | None => fromTargetChain
  end.

(** [if (r.status === 'rejected') throw r.reason], then [r.value]. *)
Definition value_or_throw {T} (r : PromiseSettledResult T) : Async T :=
  match r with
  | rejected reason => throw (Reason reason)
  | fulfilled v => ret v
  end.

(** [error.cause.data?.args?.[0]], which the condition evaluates only
    when [error.cause] is an object. *)
Definition cause_data_args_0 (error : JsError) : option JsValue :=
  match cause error with
  | Some c => data_args_0 c
  | None => None
  end.

(** Lines 80-152.  The four calls of lines 105-124 are made in the order
    of the array, each is logged, and [Promise.allSettled] gives the way
    each settled; nothing is decided before all four have. *)
Definition getWithdrawalStatus
    (client : Client) (parameters : GetWithdrawalStatusParameters)
  : Async string :=
  let chain_ :=
    match chain parameters with
    | Some c => Some c
    | None => client_chain client
    end in
  let receipt_ := receipt parameters in
  portalAddress_ <- lift (resolve_portalAddress parameters chain_) ;;
  match hd_error (getWithdrawals receipt_) with
  | None =>
      throw (New_ReceiptContainsNoWithdrawalsError (transactionHash receipt_))
  | Some withdrawal =>
      let l2o := {| l2o_parameters := parameters;
                    l2BlockNumber := blockNumber receipt_ |} in
      let ttf := {| ttf_parameters := parameters;
                    ttf_withdrawalHash := withdrawalHash withdrawal |} in
      outputResult <-
        settle (Call_getL2Output l2o) (getL2Output client l2o) ;;
      proveResult <-
        settle (Call_readContract portalAddress_
                  (functionName provenWithdrawals)
                  (withdrawalHash withdrawal))
               (readContract _ client portalAddress_ provenWithdrawals
                  (withdrawalHash withdrawal)) ;;
      finalizedResult <-
        settle (Call_readContract portalAddress_
                  (functionName finalizedWithdrawals)
                  (withdrawalHash withdrawal))
               (readContract _ client portalAddress_ finalizedWithdrawals
                  (withdrawalHash withdrawal)) ;;
      timeToFinalizeResult <-
        settle (Call_getTimeToFinalize ttf) (getTimeToFinalize client ttf) ;;
      match outputResult with
      | rejected error =>
          if instanceof (cause error) ContractFunctionRevertedError
             && strict_eq_string (cause_data_args_0 error)
                  "L2OutputOracle: cannot get output for a block that has not been proposed"
          then ret "waiting-to-prove"
          else throw (Reason error)
      | fulfilled _ =>
          proveValue <- value_or_throw proveResult ;;
          finalized <- value_or_throw finalizedResult ;;
          timeToFinalize <- value_or_throw timeToFinalizeResult ;;
          let '(_, proveTimestamp, _) := proveValue in
          if negb (truthy_bigint proveTimestamp) then ret "ready-to-prove"
          else if (finalized : bool) then ret "finalized"
          else if (0 <? seconds timeToFinalize)%float
               then ret "waiting-to-finalize"
               else ret "ready-to-finalize"
      end
  end.

(** A call of the resolver, started with no read issued. *)
Definition run (client : Client) (parameters : GetWithdrawalStatusParameters)
  : Completion string * list Call :=
  getWithdrawalStatus client parameters [].

End Resolver.

(** ** Vocabulary of the properties *)

Definition output_not_proposed : string :=
  "L2OutputOracle: cannot get output for a block that has not been proposed".

(** The recognized condition, in words: the cause of the failure is an
    instance of [ContractFunctionRevertedError] and the first argument of
    the revert is the string above. *)
Definition CheckpointNotYetPublished (e : JsError) : Prop :=
  exists c d l,
    cause e = Some c /\
    class c = ContractFunctionRevertedError /\
    data c = Some d /\
    args d = Some l /\
    nth_error l 0 = Some (JsString output_not_proposed).

(** The five statuses of [GetWithdrawalStatusReturnType]. *)
Definition statuses : list string :=
  [ "waiting-to-prove"; "ready-to-prove"; "waiting-to-finalize";
    "ready-to-finalize"; "finalized" ].

Definition reason_of {T} (r : PromiseSettledResult T) : option JsError :=
  match r with
  | rejected e => Some e
  | fulfilled _ => None
  end.

(** The reason of the first read that failed, in the order Q2, Q3, Q4. *)
Definition first_failure {T2 T3 T4}
    (r2 : PromiseSettledResult T2) (r3 : PromiseSettledResult T3)
    (r4 : PromiseSettledResult T4) : option JsError :=
  match reason_of r2 with
  | Some e => Some e
  | None =>
      match reason_of r3 with
      | Some e => Some e
      | None => reason_of r4
      end
  end.

Definition effective_chain
    (client : Client) (parameters : GetWithdrawalStatusParameters)
  : option Chain.t :=
  match chain parameters with
  | Some c => Some c
  | None => client_chain client
  end.

Definition with_receipt
    (parameters : GetWithdrawalStatusParameters) (r : TransactionReceipt)
  : GetWithdrawalStatusParameters :=
  {| chain := chain parameters;
     receipt := r;
     targetChain := targetChain parameters;
     portalAddress := portalAddress parameters;
     l2OutputOracleAddress := l2OutputOracleAddress parameters |}.

Section Queries.

Variable getWithdrawals : TransactionReceipt -> list Withdrawal.
Variable getL2Output :
  Client -> GetL2OutputParameters ->
  PromiseSettledResult GetL2OutputReturnType.
Variable readContract :
  forall T : Type,
    Client -> Address -> PortalFunction T -> Hex -> PromiseSettledResult T.
Variable getTimeToFinalize :
  Client -> GetTimeToFinalizeParameters ->
  PromiseSettledResult GetTimeToFinalizeReturnType.

(** The call reaches the four reads: the portal address resolved to [a]
    and the first withdrawal of the receipt is [w]. *)
Definition reaches_reads
    (client : Client) (parameters : GetWithdrawalStatusParameters)
    (a : Address) (w : Withdrawal) : Prop :=
  resolve_portalAddress parameters (effective_chain client parameters)
    = Normal a /\
  hd_error (getWithdrawals (receipt parameters)) = Some w.

(** The way each read settles, at the arguments the resolver passes. *)
Definition Q1 (client : Client) (parameters : GetWithdrawalStatusParameters) :=
  getL2Output client
    {| l2o_parameters := parameters;
       l2BlockNumber := blockNumber (receipt parameters) |}.

Definition Q2 (client : Client) (a : Address) (w : Withdrawal) :=
  readContract _ client a provenWithdrawals (withdrawalHash w).

Definition Q3 (client : Client) (a : Address) (w : Withdrawal) :=
  readContract _ client a finalizedWithdrawals (withdrawalHash w).

Definition Q4 (client : Client) (parameters : GetWithdrawalStatusParameters)
    (w : Withdrawal) :=
  getTimeToFinalize client
    {| ttf_parameters := parameters;
       ttf_withdrawalHash := withdrawalHash w |}.

(** The reads of one call, in the order they are issued. *)
Definition reads (parameters : GetWithdrawalStatusParameters)
    (a : Address) (w : Withdrawal) : list Call :=
  [ Call_getL2Output
      {| l2o_parameters := parameters;
         l2BlockNumber := blockNumber (receipt parameters) |};
    Call_readContract a "provenWithdrawals" (withdrawalHash w);
    Call_readContract a "finalizedWithdrawals" (withdrawalHash w);
    Call_getTimeToFinalize
      {| ttf_parameters := parameters;
         ttf_withdrawalHash := withdrawalHash w |} ].

End Queries.

(** ** Test doubles

    Collaborators that settle the way a scenario says, in the manner of the
    stubs of a test, and a receipt extraction that turns every log into one
    withdrawal. *)

Module Stub.

Record Scenario : Type := {
  output : PromiseSettledResult GetL2OutputReturnType;
  proven : PromiseSettledResult (Hex * Z * Z);
  finalized : PromiseSettledResult bool;
  timeToFinalize : PromiseSettledResult GetTimeToFinalizeReturnType
}.

Definition getWithdrawals (r : TransactionReceipt) : list Withdrawal :=
  map (fun l => {| nonce := 0; sender := log_address l;
                   target := log_address l; value := 0; gasLimit := 0;
                   data_ := "0x"; withdrawalHash := log_data l |})
      (logs r).

Definition getL2Output (s : Scenario)
    (_ : Client) (_ : GetL2OutputParameters) := output s.

Definition readContract (s : Scenario) (T : Type)
    (_ : Client) (_ : Address) (f : PortalFunction T) (_ : Hex)
  : PromiseSettledResult T :=
  match f in PortalFunction T0 return PromiseSettledResult T0 with
  | provenWithdrawals => proven s
  | finalizedWithdrawals => finalized s
  end.

Definition getTimeToFinalize (s : Scenario)
    (_ : Client) (_ : GetTimeToFinalizeParameters) := timeToFinalize s.

Definition run (s : Scenario) :=
  run getWithdrawals (getL2Output s) (readContract s) (getTimeToFinalize s).

Definition mainnet : Chain.t := {| Chain.id := 1 |}.
Definition goerli : Chain.t := {| Chain.id := 5 |}.

Definition client : Client := {| client_chain := Some mainnet |}.

(** A target chain whose portal is deployed on chain 1 only. *)
Definition optimism : TargetChain.t :=
  {| TargetChain.portal :=
       [ (1, {| ChainContract.address := "0xbEb5Fc579115071764c7423A4f12eDde41f106Ed" |}) ];
     TargetChain.l2OutputOracle :=
       [ (1, {| ChainContract.address := "0xdfe97868233d1aa22e815a266982f2cf17685a27" |}) ] |}.

Definition log1 : Log :=
  {| log_address := "0x4200000000000000000000000000000000000016";
     log_topics := []; log_data := "0xaa" |}.
Definition log2 : Log :=
  {| log_address := "0x4200000000000000000000000000000000000016";
     log_topics := []; log_data := "0xbb" |}.

Definition receipt_of (ls : list Log) : TransactionReceipt :=
  {| transactionHash := "0x7b5cedccfaf9abe6ce3d07982f57bcb9176313b019ff0fc602a0b70342fe3147";
     blockNumber := 113388533; logs := ls |}.

Definition parameters (ls : list Log) : GetWithdrawalStatusParameters :=
  {| chain := None; receipt := receipt_of ls; targetChain := Some optimism;
     portalAddress := None; l2OutputOracleAddress := None |}.

Definition l2Output : GetL2OutputReturnType :=
  {| outputIndex := 4529; outputRoot := "0x01"; timestamp := 1702377887;
     l2o_l2BlockNumber := 113388600 |}.

Definition window (s : number) : GetTimeToFinalizeReturnType :=
  {| period := 604800%float; seconds := s; ttf_timestamp := 0%float |}.

Definition revert (reason : string) : JsError :=
  MkError ContractFunctionExecutionError "The contract function reverted" None
    (Some (MkError ContractFunctionRevertedError reason
             (Some {| errorName := "Error";
                      args := Some [JsString reason] |})
             None)).

Definition network_error : JsError :=
  MkError HttpRequestError "HTTP request failed." None None.

Definition other_error (name : string) : JsError :=
  MkError (OtherError name) name None None.

(** The portal address and the first withdrawal the resolver finds for
    [parameters (log1 :: _)]. *)
Definition portal1 : Address := "0xbEb5Fc579115071764c7423A4f12eDde41f106Ed".

Definition withdrawal1 : Withdrawal :=
  {| nonce := 0; sender := log_address log1; target := log_address log1;
     value := 0; gasLimit := 0; data_ := "0x"; withdrawalHash := "0xaa" |}.

(** The four reads fulfilled: proof timestamp [ts], finalization record
    [fin], window of [secs] seconds. *)
Definition settled (ts : Z) (fin : bool) (secs : number) : Scenario :=
  {| output := fulfilled l2Output;
     proven := fulfilled ("0x01", ts, 4529);
     finalized := fulfilled fin;
     timeToFinalize := fulfilled (window secs) |}.

(** Q1 fails with [e1]; the other three reads fail too. *)
Definition output_fails (e1 : JsError) : Scenario :=
  {| output := rejected e1;
     proven := rejected (other_error "Q2");
     finalized := rejected (other_error "Q3");
     timeToFinalize := rejected (other_error "Q4") |}.

(** Q1 fails with [e1]; the other three reads are fulfilled. *)
Definition only_output_fails (e1 : JsError) : Scenario :=
  {| output := rejected e1;
     proven := fulfilled ("0x01", 1702377887, 4529);
     finalized := fulfilled false;
     timeToFinalize := fulfilled (window 120%float) |}.

(** Q1 fulfilled; Q2, Q3 and Q4 settle as given. *)
Definition output_ok
    (r2 : PromiseSettledResult (Hex * Z * Z))
    (r3 : PromiseSettledResult bool)
    (r4 : PromiseSettledResult GetTimeToFinalizeReturnType) : Scenario :=
  {| output := fulfilled l2Output; proven := r2; finalized := r3;
     timeToFinalize := r4 |}.

(** A revert whose message is the expected one, but whose error is not a
    [ContractFunctionRevertedError]. *)
Definition wrong_class : JsError :=
  MkError ContractFunctionExecutionError "The contract function reverted" None
    (Some (MkError (OtherError "RpcRequestError") output_not_proposed
             (Some {| errorName := "Error";
                      args := Some [JsString output_not_proposed] |})
             None)).

End Stub.

(** ** The decision table

    The table of the specification, read on the four settled reads: the
    code's condition on the failure of Q1, then the failures of Q2, Q3 and
    Q4, then the three tests on the values. *)

Definition is_output_not_proposed (error : JsError) : bool :=
  instanceof (cause error) ContractFunctionRevertedError
  && strict_eq_string (cause_data_args_0 error) output_not_proposed.

Definition decision_table
    (r1 : PromiseSettledResult GetL2OutputReturnType)
    (r2 : PromiseSettledResult (Hex * Z * Z))
    (r3 : PromiseSettledResult bool)
    (r4 : PromiseSettledResult GetTimeToFinalizeReturnType)
  : Completion string :=
  match r1 with
  | rejected e =>
      if is_output_not_proposed e then Normal "waiting-to-prove"
      else Throw (Reason e)
  | fulfilled _ =>
      match r2 with
      | rejected e => Throw (Reason e)
      | fulfilled (_, proveTimestamp, _) =>
          match r3 with
          | rejected e => Throw (Reason e)
          | fulfilled fin =>
              match r4 with
              | rejected e => Throw (Reason e)
              | fulfilled t =>
                  if proveTimestamp =? 0 then Normal "ready-to-prove"
                  else if fin then Normal "finalized"
                  else if (0 <? seconds t)%float
                       then Normal "waiting-to-finalize"
                       else Normal "ready-to-finalize"
              end
          end
      end
  end.

(** ** More test data

    Parameters that name the portal address themselves, parameters that
    name the chain, clients on other chains, and an extraction that differs
    from [Stub.getWithdrawals] in the nonce it gives. *)

Module Fixture.

Definition explicit_portal : Address :=
  "0x49048044D57e1C92A77f79988d21Fa8fAF74E97e".

Definition explicit_parameters (ls : list Log)
  : GetWithdrawalStatusParameters :=
  {| chain := None; receipt := Stub.receipt_of ls; targetChain := None;
     portalAddress := Some explicit_portal;
     l2OutputOracleAddress :=
       Some "0x56315b90c40730925ec5485cf004d835058518A0" |}.

Definition parameters_on (c : Chain.t) (ls : list Log)
  : GetWithdrawalStatusParameters :=
  {| chain := Some c; receipt := Stub.receipt_of ls;
     targetChain := Some Stub.optimism;
     portalAddress := None; l2OutputOracleAddress := None |}.

Definition goerli_client : Client := {| client_chain := Some Stub.goerli |}.

Definition chainless_client : Client := {| client_chain := None |}.

Definition getWithdrawals_nonce (n : Z) (r : TransactionReceipt)
  : list Withdrawal :=
  map (fun l => {| nonce := n; sender := log_address l;
                   target := log_address l; value := 1; gasLimit := 21000;
                   data_ := "0x"; withdrawalHash := log_data l |})
      (logs r).

End Fixture.

(** ** Tactics for the test doubles

    A theorem of the resolver, taken at the collaborators of a scenario, at
    the client [Stub.client] and at the parameters of a receipt with the
    given logs. *)

Local Ltac at_stub thm s ls :=
  eapply (thm Stub.getWithdrawals (Stub.getL2Output s) (Stub.readContract s)
           (Stub.getTimeToFinalize s) Stub.client (Stub.parameters ls)
           Stub.portal1 Stub.withdrawal1).

(** The same for a theorem whose conclusion is a conjunction: the
    hypotheses are discharged by evaluation and the two halves named. *)
Local Ltac at_stub_cases thm s ls Ha Hb :=
  edestruct (thm Stub.getWithdrawals (Stub.getL2Output s)
               (Stub.readContract s) (Stub.getTimeToFinalize s) Stub.client
               (Stub.parameters ls) Stub.portal1 Stub.withdrawal1)
    as [Ha Hb];
  [ split; reflexivity | try reflexivity; try discriminate .. | ].

(** The equations of a conjunction that hold by evaluation. *)
Local Ltac conj_refl := repeat (split; [reflexivity|]).

(** * Properties *)

(** ** JavaScript comparisons *)

Lemma ErrorClass_eqb_eq (a b : ErrorClass) :
  ErrorClass_eqb a b = true <-> a = b.
Proof.
  destruct a, b; cbn; try (split; congruence); try tauto.
  rewrite String.eqb_eq. split; congruence.
Qed.

Lemma strict_eq_string_spec (v : option JsValue) (s : string) :
  strict_eq_string v s = true <-> v = Some (JsString s).
Proof.
  destruct v as [[ | | | | | t | ]|]; cbn; try (split; congruence).
  rewrite String.eqb_eq. split; congruence.
Qed.

(** [s <= 0] excludes [s > 0], also for the two zeros and the infinities. *)
Lemma leb_zero_not_gt (s : number) :
  (s <=? 0)%float = true -> (0 <? s)%float = false.
Proof.
  rewrite leb_spec, ltb_spec.
  change (Prim2SF 0) with (S754_zero false).
  destruct (Prim2SF s) as [sg|sg| |sg m e]; try destruct sg; cbn;
    congruence.
Qed.

(** The condition of lines 131-135 says what [CheckpointNotYetPublished]
    says. *)
Lemma is_output_not_proposed_spec (e : JsError) :
  is_output_not_proposed e = true <-> CheckpointNotYetPublished e.
Proof.
  unfold is_output_not_proposed, CheckpointNotYetPublished.
  unfold instanceof, cause_data_args_0, data_args_0.
  rewrite andb_true_iff, strict_eq_string_spec.
  split.
  - intros [Hc Ha]. destruct (cause e) as [c|]; [|discriminate].
    apply ErrorClass_eqb_eq in Hc.
    destruct (data c) as [d|] eqn:Ed; [|discriminate].
    destruct (args d) as [l|] eqn:El; [|discriminate].
    exists c, d, l. repeat split; assumption.
  - intros (c & d & l & Hc & Hk & Hd & Hl & H0).
    rewrite Hc, Hd, Hl. split; [now apply ErrorClass_eqb_eq | exact H0].
Qed.

Lemma is_output_not_proposed_false (e : JsError) :
  ~ CheckpointNotYetPublished e -> is_output_not_proposed e = false.
Proof.
  intros H. destruct (is_output_not_proposed e) eqn:E; [|reflexivity].
  now apply is_output_not_proposed_spec in E.
Qed.

Section Properties.

Variable getWithdrawals : TransactionReceipt -> list Withdrawal.
Variable getL2Output :
  Client -> GetL2OutputParameters ->
  PromiseSettledResult GetL2OutputReturnType.
Variable readContract :
  forall T : Type,
    Client -> Address -> PortalFunction T -> Hex -> PromiseSettledResult T.
Variable getTimeToFinalize :
  Client -> GetTimeToFinalizeParameters ->
  PromiseSettledResult GetTimeToFinalizeReturnType.

Local Abbreviation resolver :=
  (getWithdrawalStatus getWithdrawals getL2Output readContract
     getTimeToFinalize).
Local Abbreviation run' :=
  (run getWithdrawals getL2Output readContract getTimeToFinalize).
Local Abbreviation reaches := (reaches_reads getWithdrawals).
Local Abbreviation q1 := (Q1 getL2Output).
Local Abbreviation q2 := (Q2 readContract).
Local Abbreviation q3 := (Q3 readContract).
Local Abbreviation q4 := (Q4 getTimeToFinalize).

(** *** The resolver in three steps *)

(** A failed address lookup ends the call before anything else. *)
Lemma resolver_address_throws client parameters e log :
  resolve_portalAddress parameters (effective_chain client parameters)
    = Throw e ->
  resolver client parameters log = (Throw e, log).
Proof.
  intros Ha. unfold getWithdrawalStatus, bind, lift.
  unfold effective_chain in Ha. now rewrite Ha.
Qed.

(** No withdrawal: the error, and the log as it was. *)
Lemma resolver_no_withdrawal client parameters a log :
  resolve_portalAddress parameters (effective_chain client parameters)
    = Normal a ->
  hd_error (getWithdrawals (receipt parameters)) = None ->
  resolver client parameters log
  = (Throw (New_ReceiptContainsNoWithdrawalsError
              (transactionHash (receipt parameters))), log).
Proof.
  intros Ha Hw. unfold getWithdrawalStatus, bind, lift.
  unfold effective_chain in Ha. now rewrite Ha, Hw.
Qed.

(** Otherwise the four reads are issued, and the completion is the entry
    of the decision table for the way they settled. *)
Lemma resolver_decides client parameters a w log :
  reaches client parameters a w ->
  resolver client parameters log
  = (decision_table (q1 client parameters) (q2 client a w)
       (q3 client a w) (q4 client parameters w),
     (log ++ reads parameters a w)%list).
Proof.
  intros [Ha Hw].
  unfold getWithdrawalStatus, bind, lift, settle.
  unfold effective_chain in Ha. rewrite Ha, Hw. cbn.
  unfold decision_table, Q1, Q2, Q3, Q4, reads.
  repeat rewrite <- app_assoc. cbn [app].
  destruct (getL2Output _ _) as [o|e1].
  - destruct (readContract _ _ _ provenWithdrawals _) as [[[root ts] idx]|e2];
      [|reflexivity].
    destruct (readContract _ _ _ finalizedWithdrawals _) as [fin|e3];
      [|reflexivity].
    destruct (getTimeToFinalize _ _) as [t|e4]; [|reflexivity].
    cbn. unfold truthy_bigint. rewrite negb_involutive.
    destruct (ts =? 0); [reflexivity|].
    destruct fin; [reflexivity|].
    destruct (0 <? seconds t)%float; reflexivity.
  - fold output_not_proposed. fold (is_output_not_proposed e1).
    destruct (is_output_not_proposed e1); reflexivity.
Qed.

Lemma run_decides client parameters a w :
  reaches client parameters a w ->
  fst (run' client parameters)
  = decision_table (q1 client parameters) (q2 client a w)
      (q3 client a w) (q4 client parameters w).
Proof.
  intros H. unfold run. now rewrite (resolver_decides _ _ a w).
Qed.

Lemma resolve_portalAddress_with_receipt parameters r c :
  resolve_portalAddress (with_receipt parameters r) c
  = resolve_portalAddress parameters c.
Proof. reflexivity. Qed.

(** *** The properties of the specification *)

(** C1. When Q1 fails with the recognized condition (the checkpoint for
    the block is not yet published), the resolver returns
    ['waiting-to-prove'], whatever the way Q2, Q3 and Q4 settle: they are
    not constrained. *)
Theorem not_yet_published_waiting_to_prove client parameters a w e :
  reaches client parameters a w ->
  q1 client parameters = rejected e ->
  CheckpointNotYetPublished e ->
  fst (run' client parameters) = Normal "waiting-to-prove".
Proof.
  intros Hr H1 He. rewrite (run_decides _ _ a w Hr), H1. cbn.
  apply is_output_not_proposed_spec in He. now rewrite He.
Qed.

(** C2, amended. When the portal address resolves and the extraction
    yields no withdrawal, the resolver throws
    [ReceiptContainsNoWithdrawalsError] for the hash of the receipt and
    the log of reads is left as it was: none of the four reads is issued.
    The extraction is line 96 and follows the resolution of the portal
    address (lines 90-94); when that resolution fails, its [TypeError] is
    what the call throws, whatever the receipt holds. *)
Theorem no_withdrawal_no_read client parameters a log :
  resolve_portalAddress parameters (effective_chain client parameters)
    = Normal a ->
  getWithdrawals (receipt parameters) = [] ->
  resolver client parameters log
  = (Throw (New_ReceiptContainsNoWithdrawalsError
              (transactionHash (receipt parameters))), log).
Proof.
  intros Ha Hw. apply (resolver_no_withdrawal _ _ a); [exact Ha|].
  now rewrite Hw.
Qed.

(** C3. With Q1 fulfilled, a present (non-zero) proof timestamp from Q2
    and Q3 true, the resolver returns ['finalized'] for every window Q4
    reports, a positive one included: the finalization record is tested
    before the window. *)
Theorem finalized_before_window client parameters a w o root ts idx t :
  reaches client parameters a w ->
  q1 client parameters = fulfilled o ->
  q2 client a w = fulfilled (root, ts, idx) ->
  ts <> 0 ->
  q3 client a w = fulfilled true ->
  q4 client parameters w = fulfilled t ->
  fst (run' client parameters) = Normal "finalized".
Proof.
  intros Hr H1 H2 Hts H3 H4.
  rewrite (run_decides _ _ a w Hr), H1, H2, H3, H4. cbn.
  apply Z.eqb_neq in Hts. now rewrite Hts.
Qed.

(** C4, amended. With Q1 fulfilled, an absent (zero) proof timestamp from
    Q2 and Q3 false, the resolver returns ['ready-to-prove'] for every
    window Q4 reports; when Q4 fails, its reason is thrown instead. *)
Theorem absent_proof_ready_to_prove client parameters a w o root idx :
  reaches client parameters a w ->
  q1 client parameters = fulfilled o ->
  q2 client a w = fulfilled (root, 0, idx) ->
  q3 client a w = fulfilled false ->
  (forall t, q4 client parameters w = fulfilled t ->
             fst (run' client parameters) = Normal "ready-to-prove") /\
  (forall e, q4 client parameters w = rejected e ->
             fst (run' client parameters) = Throw (Reason e)).
Proof.
  intros Hr H1 H2 H3.
  rewrite (run_decides _ _ a w Hr), H1, H2, H3.
  split; intros x H4; now rewrite H4.
Qed.

(** C5. With the four reads fulfilled, a present proof timestamp and Q3
    false: a window [seconds > 0] gives ['waiting-to-finalize'], a window
    [seconds <= 0], zero included, gives ['ready-to-finalize']. *)
Theorem window_decides client parameters a w o root ts idx t :
  reaches client parameters a w ->
  q1 client parameters = fulfilled o ->
  q2 client a w = fulfilled (root, ts, idx) ->
  ts <> 0 ->
  q3 client a w = fulfilled false ->
  q4 client parameters w = fulfilled t ->
  ((0 <? seconds t)%float = true ->
   fst (run' client parameters) = Normal "waiting-to-finalize") /\
  ((seconds t <=? 0)%float = true ->
   fst (run' client parameters) = Normal "ready-to-finalize").
Proof.
  intros Hr H1 H2 Hts H3 H4.
  rewrite (run_decides _ _ a w Hr), H1, H2, H3, H4. cbn.
  apply Z.eqb_neq in Hts. rewrite Hts.
  split; intros Hs.
  - now rewrite Hs.
  - now rewrite (leb_zero_not_gt _ Hs).
Qed.

(** C6. A failure is thrown as the reason the read rejected with: the
    reason of Q1 when it is not the recognized condition, whatever Q2, Q3
    and Q4 did; and, Q1 fulfilled, the reason of Q2, of Q3 when Q2 is
    fulfilled, of Q4 when Q2 and Q3 are. *)
Theorem failure_thrown_verbatim client parameters a w :
  reaches client parameters a w ->
  (forall e,
      q1 client parameters = rejected e ->
      ~ CheckpointNotYetPublished e ->
      fst (run' client parameters) = Throw (Reason e)) /\
  (forall o,
      q1 client parameters = fulfilled o ->
      (forall e,
          q2 client a w = rejected e ->
          fst (run' client parameters) = Throw (Reason e)) /\
      (forall v e,
          q2 client a w = fulfilled v ->
          q3 client a w = rejected e ->
          fst (run' client parameters) = Throw (Reason e)) /\
      (forall v fin e,
          q2 client a w = fulfilled v ->
          q3 client a w = fulfilled fin ->
          q4 client parameters w = rejected e ->
          fst (run' client parameters) = Throw (Reason e))).
Proof.
  intros Hr. rewrite (run_decides _ _ a w Hr). split.
  - intros e H1 He. rewrite H1. cbn.
    now rewrite (is_output_not_proposed_false _ He).
  - intros o H1. rewrite H1. repeat split.
    + intros e H2. now rewrite H2.
    + intros [[root ts] idx] e H2 H3. now rewrite H2, H3.
    + intros [[root ts] idx] fin e H2 H3 H4. now rewrite H2, H3, H4.
Qed.

(** C7. Every call completes, either by returning one of the five
    statuses or by throwing. *)
Theorem status_or_error client parameters log :
  (exists s, fst (resolver client parameters log) = Normal s /\
             In s statuses) \/
  (exists e, fst (resolver client parameters log) = Throw e).
Proof.
  destruct (resolve_portalAddress parameters
              (effective_chain client parameters)) as [a|e] eqn:Ha.
  2:{ right. exists e. now rewrite (resolver_address_throws _ _ e). }
  destruct (hd_error (getWithdrawals (receipt parameters))) as [w|] eqn:Hw.
  2:{ right. eexists. now rewrite (resolver_no_withdrawal _ _ a). }
  rewrite (resolver_decides _ _ a w) by (split; assumption).
  cbn [fst]. unfold decision_table, statuses.
  destruct (q1 client parameters) as [o|e1].
  - destruct (q2 client a w) as [[[root ts] idx]|e2]; [|right; eauto].
    destruct (q3 client a w) as [fin|e3]; [|right; eauto].
    destruct (q4 client parameters w) as [t|e4]; [|right; eauto].
    left. destruct (ts =? 0); [|destruct fin; [|destruct (0 <? seconds t)%float]];
      eexists; (split; [reflexivity|]); cbn; tauto.
  - destruct (is_output_not_proposed e1); [left|right; eauto].
    eexists; (split; [reflexivity|]); cbn; tauto.
Qed.

(** C8. A failure of Q1 gives ['waiting-to-prove'] exactly when its cause
    is a [ContractFunctionRevertedError] whose first revert argument is
    the string [output_not_proposed]; any other failure of Q1 is thrown. *)
Theorem recognized_iff_revert_message client parameters a w e :
  reaches client parameters a w ->
  q1 client parameters = rejected e ->
  (fst (run' client parameters) = Normal "waiting-to-prove"
   <-> CheckpointNotYetPublished e) /\
  (~ CheckpointNotYetPublished e ->
   fst (run' client parameters) = Throw (Reason e)).
Proof.
  intros Hr H1. rewrite (run_decides _ _ a w Hr), H1. cbn.
  rewrite <- is_output_not_proposed_spec.
  destruct (is_output_not_proposed e); split;
    try (split; congruence); congruence.
Qed.

(** C9. With Q1 fulfilled, the error thrown is the reason of the first
    failed read in the order Q2, Q3, Q4. *)
Theorem failure_priority client parameters a w o e :
  reaches client parameters a w ->
  q1 client parameters = fulfilled o ->
  first_failure (q2 client a w) (q3 client a w) (q4 client parameters w)
    = Some e ->
  fst (run' client parameters) = Throw (Reason e).
Proof.
  intros Hr H1. rewrite (run_decides _ _ a w Hr), H1.
  unfold first_failure, decision_table.
  destruct (q2 client a w) as [[[root ts] idx]|e2]; cbn; [|congruence].
  destruct (q3 client a w) as [fin|e3]; cbn; [|congruence].
  destruct (q4 client parameters w) as [t|e4]; cbn; congruence.
Qed.

(** C10. Two receipts whose extracted withdrawals have the same first
    element [w], with Q1 and Q4 (the two reads whose arguments carry the
    receipt) settling identically, give the same status or error: the
    rest of either sequence plays no part. *)
Theorem first_withdrawal_only client parameters r1 r2 w :
  hd_error (getWithdrawals r1) = Some w ->
  hd_error (getWithdrawals r2) = Some w ->
  q1 client (with_receipt parameters r1)
    = q1 client (with_receipt parameters r2) ->
  q4 client (with_receipt parameters r1) w
    = q4 client (with_receipt parameters r2) w ->
  fst (run' client (with_receipt parameters r1))
  = fst (run' client (with_receipt parameters r2)).
Proof.
  intros Hw1 Hw2 H1 H4.
  destruct (resolve_portalAddress parameters
              (effective_chain client parameters)) as [a|e] eqn:Ha.
  - rewrite (run_decides _ (with_receipt parameters r1) a w)
      by (split; assumption).
    rewrite (run_decides _ (with_receipt parameters r2) a w)
      by (split; assumption).
    now rewrite H1, H4.
  - unfold run.
    rewrite (resolver_address_throws _ (with_receipt parameters r1) e)
      by exact Ha.
    now rewrite (resolver_address_throws _ (with_receipt parameters r2) e)
      by exact Ha.
Qed.

End Properties.

(** * The resolver on the test doubles *)

Example run_waiting_to_finalize :
  Stub.run (Stub.settled 1702377887 false 120%float)
           Stub.client (Stub.parameters [Stub.log1])
  = (Normal "waiting-to-finalize",
     reads (Stub.parameters [Stub.log1]) Stub.portal1 Stub.withdrawal1).
Proof. reflexivity. Qed.

Example run_ready_to_finalize_nan :
  fst (Stub.run (Stub.settled 1702377887 false nan)
                Stub.client (Stub.parameters [Stub.log1]))
  = Normal "ready-to-finalize".
Proof. reflexivity. Qed.

Example run_chain_without_portal :
  Stub.run (Stub.settled 1702377887 false 120%float)
           {| client_chain := Some Stub.goerli |} (Stub.parameters [])
  = (Throw TypeError, []).
Proof. reflexivity. Qed.

Example run_absent_proof_failed_window :
  Stub.run (Stub.output_ok (fulfilled ("0x00", 0, 0)) (fulfilled false)
              (rejected Stub.network_error))
           Stub.client (Stub.parameters [Stub.log1])
  = (Throw (Reason Stub.network_error),
     reads (Stub.parameters [Stub.log1]) Stub.portal1 Stub.withdrawal1).
Proof. reflexivity. Qed.

Lemma not_yet_published_waiting_to_prove_witness :
  fst (Stub.run (Stub.output_fails (Stub.revert output_not_proposed))
         Stub.client (Stub.parameters [Stub.log1]))
  = Normal "waiting-to-prove".
Proof.
  at_stub not_yet_published_waiting_to_prove
    (Stub.output_fails (Stub.revert output_not_proposed)) [Stub.log1].
  - split; reflexivity.
  - reflexivity.
  - do 3 eexists. repeat split; reflexivity.
Defined.

Lemma no_withdrawal_no_read_witness :
  Stub.getWithdrawals (Stub.receipt_of []) = [] /\
  Stub.run (Stub.settled 1702377887 false 120%float)
           Stub.client (Stub.parameters [])
  = (Throw (New_ReceiptContainsNoWithdrawalsError
              (transactionHash (Stub.receipt_of []))), []).
Proof.
  split; [reflexivity|].
  set (s := Stub.settled 1702377887 false 120%float).
  apply (no_withdrawal_no_read Stub.getWithdrawals (Stub.getL2Output s)
           (Stub.readContract s) (Stub.getTimeToFinalize s) Stub.client
           (Stub.parameters []) Stub.portal1 []); reflexivity.
Defined.

(** C2, as stated: every call on a receipt without withdrawals would throw
    [ReceiptContainsNoWithdrawalsError].  It does not when the client is on
    a chain for which [targetChain.contracts.portal] has no entry: line 92
    reads [address] of [undefined] and throws a [TypeError] before line 96
    extracts anything. *)
Lemma no_withdrawal_unknown_chain_counterexample :
  ~ (forall getWithdrawals getL2Output readContract getTimeToFinalize
            client parameters log,
        getWithdrawals (receipt parameters) = [] ->
        getWithdrawalStatus getWithdrawals getL2Output readContract
          getTimeToFinalize client parameters log
        = (Throw (New_ReceiptContainsNoWithdrawalsError
                    (transactionHash (receipt parameters))), log)).
Proof.
  intros H.
  set (s := Stub.settled 1702377887 false 120%float).
  specialize (H Stub.getWithdrawals (Stub.getL2Output s)
                (Stub.readContract s) (Stub.getTimeToFinalize s)
                {| client_chain := Some Stub.goerli |} (Stub.parameters [])
                [] eq_refl).
  discriminate H.
Qed.

Lemma finalized_before_window_witness :
  (0 <? 120)%float = true /\
  fst (Stub.run (Stub.settled 1702377887 true 120%float)
         Stub.client (Stub.parameters [Stub.log1]))
  = Normal "finalized".
Proof.
  split; [reflexivity|].
  at_stub finalized_before_window (Stub.settled 1702377887 true 120%float)
    [Stub.log1]; try reflexivity.
  - split; reflexivity.
  - discriminate.
Defined.

Lemma absent_proof_ready_to_prove_witness :
  fst (Stub.run (Stub.settled 0 false 120%float)
         Stub.client (Stub.parameters [Stub.log1]))
  = Normal "ready-to-prove" /\
  fst (Stub.run (Stub.output_ok (fulfilled ("0x00", 0, 0)) (fulfilled false)
                   (rejected Stub.network_error))
         Stub.client (Stub.parameters [Stub.log1]))
  = Throw (Reason Stub.network_error).
Proof.
  split.
  - at_stub_cases absent_proof_ready_to_prove
      (Stub.settled 0 false 120%float) [Stub.log1] Hok Hfail.
    now apply Hok with (t := Stub.window 120%float).
  - at_stub_cases absent_proof_ready_to_prove
      (Stub.output_ok (fulfilled ("0x00", 0, 0)) (fulfilled false)
         (rejected Stub.network_error))
      [Stub.log1] Hok Hfail.
    now apply Hfail.
Defined.

(** C4, as stated: the status would be ['ready-to-prove'] whatever the
    outcome of Q4.  It is not: when Q4 is rejected, line 141 throws its
    reason before the proof timestamp is looked at. *)
Lemma absent_proof_failed_window_counterexample :
  ~ (forall getWithdrawals getL2Output readContract getTimeToFinalize
            client parameters a w o root idx,
        reaches_reads getWithdrawals client parameters a w ->
        Q1 getL2Output client parameters = fulfilled o ->
        Q2 readContract client a w = fulfilled (root, 0, idx) ->
        Q3 readContract client a w = fulfilled false ->
        fst (run getWithdrawals getL2Output readContract getTimeToFinalize
               client parameters)
        = Normal "ready-to-prove").
Proof.
  intros H.
  set (s := Stub.output_ok (fulfilled ("0x00", 0, 0)) (fulfilled false)
              (rejected Stub.network_error)).
  specialize (H Stub.getWithdrawals (Stub.getL2Output s) (Stub.readContract s)
                (Stub.getTimeToFinalize s) Stub.client
                (Stub.parameters [Stub.log1]) Stub.portal1 Stub.withdrawal1
                Stub.l2Output "0x00" 0).
  assert (E : fst (Stub.run s Stub.client (Stub.parameters [Stub.log1]))
              = Throw (Reason Stub.network_error)) by reflexivity.
  unfold Stub.run in E. rewrite H in E; try reflexivity.
  - discriminate E.
  - split; reflexivity.
Qed.

Lemma window_decides_witness :
  fst (Stub.run (Stub.settled 1702377887 false 120%float)
         Stub.client (Stub.parameters [Stub.log1]))
  = Normal "waiting-to-finalize" /\
  fst (Stub.run (Stub.settled 1702377887 false 0%float)
         Stub.client (Stub.parameters [Stub.log1]))
  = Normal "ready-to-finalize" /\
  fst (Stub.run (Stub.settled 1702377887 false (-60)%float)
         Stub.client (Stub.parameters [Stub.log1]))
  = Normal "ready-to-finalize".
Proof.
  split; [|split].
  - at_stub_cases window_decides (Stub.settled 1702377887 false 120%float)
      [Stub.log1] Hpos Hle.
    now apply Hpos.
  - at_stub_cases window_decides (Stub.settled 1702377887 false 0%float)
      [Stub.log1] Hpos Hle.
    now apply Hle.
  - at_stub_cases window_decides (Stub.settled 1702377887 false (-60)%float)
      [Stub.log1] Hpos Hle.
    now apply Hle.
Defined.

Lemma network_error_not_recognized :
  ~ CheckpointNotYetPublished Stub.network_error.
Proof. intros (c & d & l & Hc & _). discriminate Hc. Defined.

Lemma wrong_class_not_recognized :
  ~ CheckpointNotYetPublished Stub.wrong_class.
Proof.
  intros (c & d & l & Hc & Hk & _). cbn in Hc.
  injection Hc as <-. discriminate Hk.
Defined.

Lemma failure_thrown_verbatim_witness :
  fst (Stub.run (Stub.only_output_fails Stub.network_error)
         Stub.client (Stub.parameters [Stub.log1]))
  = Throw (Reason Stub.network_error) /\
  fst (Stub.run (Stub.output_ok (fulfilled ("0x01", 1702377887, 4529))
                   (fulfilled false) (rejected (Stub.other_error "Q4")))
         Stub.client (Stub.parameters [Stub.log1]))
  = Throw (Reason (Stub.other_error "Q4")).
Proof.
  split.
  - at_stub_cases failure_thrown_verbatim
      (Stub.only_output_fails Stub.network_error) [Stub.log1] H1 H234.
    apply H1; [reflexivity | exact network_error_not_recognized].
  - at_stub_cases failure_thrown_verbatim
      (Stub.output_ok (fulfilled ("0x01", 1702377887, 4529))
         (fulfilled false) (rejected (Stub.other_error "Q4")))
      [Stub.log1] H1 H234.
    destruct (H234 Stub.l2Output eq_refl) as (_ & _ & H4).
    now apply H4 with (v := ("0x01", 1702377887, 4529)) (fin := false).
Defined.

Example run_other_revert_message :
  fst (Stub.run (Stub.only_output_fails
                   (Stub.revert "L2OutputOracle: cannot get output for a block that has not been proposed."))
         Stub.client (Stub.parameters [Stub.log1]))
  = Throw (Reason (Stub.revert "L2OutputOracle: cannot get output for a block that has not been proposed.")).
Proof. reflexivity. Qed.

Lemma recognized_iff_revert_message_witness :
  (fst (Stub.run (Stub.output_fails (Stub.revert output_not_proposed))
          Stub.client (Stub.parameters [Stub.log1]))
   = Normal "waiting-to-prove"
   <-> CheckpointNotYetPublished (Stub.revert output_not_proposed)) /\
  fst (Stub.run (Stub.only_output_fails Stub.wrong_class)
         Stub.client (Stub.parameters [Stub.log1]))
  = Throw (Reason Stub.wrong_class).
Proof.
  split.
  - at_stub_cases recognized_iff_revert_message
      (Stub.output_fails (Stub.revert output_not_proposed)) [Stub.log1]
      Hiff Hother.
    exact Hiff.
  - at_stub_cases recognized_iff_revert_message
      (Stub.only_output_fails Stub.wrong_class) [Stub.log1] Hiff Hother.
    exact (Hother wrong_class_not_recognized).
Defined.

Lemma failure_priority_witness :
  fst (Stub.run (Stub.output_ok (rejected (Stub.other_error "Q2"))
                   (rejected (Stub.other_error "Q3"))
                   (rejected (Stub.other_error "Q4")))
         Stub.client (Stub.parameters [Stub.log1]))
  = Throw (Reason (Stub.other_error "Q2")) /\
  fst (Stub.run (Stub.output_ok (fulfilled ("0x01", 1702377887, 4529))
                   (rejected (Stub.other_error "Q3"))
                   (rejected (Stub.other_error "Q4")))
         Stub.client (Stub.parameters [Stub.log1]))
  = Throw (Reason (Stub.other_error "Q3")).
Proof.
  split.
  - at_stub failure_priority
      (Stub.output_ok (rejected (Stub.other_error "Q2"))
         (rejected (Stub.other_error "Q3"))
         (rejected (Stub.other_error "Q4")))
      [Stub.log1]; [split; reflexivity | reflexivity ..].
  - at_stub failure_priority
      (Stub.output_ok (fulfilled ("0x01", 1702377887, 4529))
         (rejected (Stub.other_error "Q3"))
         (rejected (Stub.other_error "Q4")))
      [Stub.log1]; [split; reflexivity | reflexivity ..].
Defined.

Lemma first_withdrawal_only_witness :
  fst (Stub.run (Stub.settled 1702377887 false 120%float) Stub.client
         (with_receipt (Stub.parameters [])
            (Stub.receipt_of [Stub.log1])))
  = fst (Stub.run (Stub.settled 1702377887 false 120%float) Stub.client
           (with_receipt (Stub.parameters [])
              (Stub.receipt_of [Stub.log1; Stub.log2]))).
Proof.
  set (s := Stub.settled 1702377887 false 120%float).
  apply (first_withdrawal_only Stub.getWithdrawals (Stub.getL2Output s)
           (Stub.readContract s) (Stub.getTimeToFinalize s) Stub.client
           (Stub.parameters []) (Stub.receipt_of [Stub.log1])
           (Stub.receipt_of [Stub.log1; Stub.log2]) Stub.withdrawal1);
    reflexivity.
Defined.

(** * The rest of the function

    What lines 88-125 do beside the decision: which portal address is
    used, which reads are issued, and what a result tells about the reads. *)

(** ** Comparisons *)

(** [NaN > 0] is false, as every comparison with [NaN]. *)
Lemma nan_not_gt (s : number) :
  is_nan s = true -> (0 <? s)%float = false.
Proof.
  unfold is_nan. rewrite eqb_spec, ltb_spec.
  change (Prim2SF 0) with (S754_zero false).
  destruct (Prim2SF s) as [sg|sg| |sg m e]; try destruct sg; cbn;
    try discriminate; try reflexivity.
  rewrite Z.compare_refl, Pos.compare_cont_refl. discriminate.
Qed.

(** The address lookup throws nothing but a [TypeError]. *)
Lemma resolve_portalAddress_throws parameters c e :
  resolve_portalAddress parameters c = Throw e -> e = TypeError.
Proof.
  unfold resolve_portalAddress.
  destruct (portalAddress parameters) as [a|]; [destruct (truthy_string a)|];
    destruct c as [c|]; destruct (targetChain parameters) as [tc|];
    try destruct (lookup _ _); try destruct (Object_values _);
    congruence.
Qed.

(** The table never gives the two errors of lines 90-101. *)
Lemma decision_table_throws r1 r2 r3 r4 e :
  decision_table r1 r2 r3 r4 = Throw e ->
  exists r, e = Reason r /\
    ((r1 = rejected r /\ is_output_not_proposed r = false) \/
     (exists o, r1 = fulfilled o) /\
     (r2 = rejected r \/ r3 = rejected r \/ r4 = rejected r)).
Proof.
  unfold decision_table.
  destruct r1 as [o|e1].
  - destruct r2 as [[[root ts] idx]|e2].
    + destruct r3 as [fin|e3].
      * destruct r4 as [t|e4].
        -- destruct (ts =? 0); [discriminate|].
           destruct fin; [discriminate|].
           destruct (0 <? seconds t)%float; discriminate.
        -- intros [= <-]. exists e4. eauto 8.
      * intros [= <-]. exists e3. eauto 8.
    + intros [= <-]. exists e2. eauto 8.
  - destruct (is_output_not_proposed e1) eqn:E; [discriminate|].
    intros [= <-]. exists e1. auto.
Qed.

Section Coverage.

Variable getWithdrawals : TransactionReceipt -> list Withdrawal.
Variable getL2Output :
  Client -> GetL2OutputParameters ->
  PromiseSettledResult GetL2OutputReturnType.
Variable readContract :
  forall T : Type,
    Client -> Address -> PortalFunction T -> Hex -> PromiseSettledResult T.
Variable getTimeToFinalize :
  Client -> GetTimeToFinalizeParameters ->
  PromiseSettledResult GetTimeToFinalizeReturnType.

Local Abbreviation resolver :=
  (getWithdrawalStatus getWithdrawals getL2Output readContract
     getTimeToFinalize).
Local Abbreviation run' :=
  (run getWithdrawals getL2Output readContract getTimeToFinalize).
Local Abbreviation reaches := (reaches_reads getWithdrawals).
Local Abbreviation q1 := (Q1 getL2Output).
Local Abbreviation q2 := (Q2 readContract).
Local Abbreviation q3 := (Q3 readContract).
Local Abbreviation q4 := (Q4 getTimeToFinalize).

(** The table of one call, split in its cases. *)
Local Ltac table client parameters a w :=
  unfold decision_table;
  destruct (q1 client parameters) as [?o|?e1];
  [ destruct (q2 client a w) as [[[?root ?ts] ?idx]|?e2];
    [ destruct (q3 client a w) as [?fin|?e3];
      [ destruct (q4 client parameters w) as [?t|?e4];
        [ destruct (Z.eqb_spec ts 0) as [?Hz|?Hz];
          [ | destruct fin;
              [ | destruct (0 <? seconds t)%float eqn:?Hs ] ]
        | ]
      | ]
    | ]
  | destruct (is_output_not_proposed e1) eqn:?He ].

(** ** The portal address (lines 88-94) *)

(** X1. A non-empty [portalAddress] parameter is the address the portal is
    read at, whatever [chain] and [targetChain] are. *)
Theorem explicit_portalAddress_used client parameters a w log :
  portalAddress parameters = Some a ->
  a <> "" ->
  hd_error (getWithdrawals (receipt parameters)) = Some w ->
  snd (resolver client parameters log)
  = (log ++ reads parameters a w)%list.
Proof.
  intros Hp Ha Hw.
  rewrite (resolver_decides _ _ _ _ _ _ a w); [reflexivity|].
  split; [|exact Hw].
  unfold resolve_portalAddress, truthy_string. rewrite Hp.
  apply String.eqb_neq in Ha. now rewrite Ha.
Qed.

(** X2. Without a [portalAddress], and with a chain (the [chain] parameter
    or else the client's), the portal is read at the address
    [targetChain.contracts.portal] holds for the id of that chain. *)
Theorem chain_portal_used client parameters c tc contract w log :
  portalAddress parameters = None ->
  effective_chain client parameters = Some c ->
  targetChain parameters = Some tc ->
  lookup (Chain.id c) (TargetChain.portal tc) = Some contract ->
  hd_error (getWithdrawals (receipt parameters)) = Some w ->
  snd (resolver client parameters log)
  = (log ++ reads parameters (ChainContract.address contract) w)%list.
Proof.
  intros Hp Hc Ht Hl Hw.
  rewrite (resolver_decides _ _ _ _ _ _ (ChainContract.address contract) w);
    [reflexivity|].
  split; [|exact Hw].
  unfold resolve_portalAddress. now rewrite Hp, Hc, Ht, Hl.
Qed.

(** X3. Without a [portalAddress] and without any chain, the portal is
    read at the address of the first property of
    [targetChain.contracts.portal]. *)
Theorem first_portal_used client parameters tc k contract rest w log :
  portalAddress parameters = None ->
  effective_chain client parameters = None ->
  targetChain parameters = Some tc ->
  TargetChain.portal tc = (k, contract) :: rest ->
  hd_error (getWithdrawals (receipt parameters)) = Some w ->
  snd (resolver client parameters log)
  = (log ++ reads parameters (ChainContract.address contract) w)%list.
Proof.
  intros Hp Hc Ht Hl Hw.
  rewrite (resolver_decides _ _ _ _ _ _ (ChainContract.address contract) w);
    [reflexivity|].
  split; [|exact Hw].
  unfold resolve_portalAddress, Object_values. now rewrite Hp, Hc, Ht, Hl.
Qed.

(** X4. Without a [portalAddress], a chain whose id has no entry in
    [targetChain.contracts.portal] (or no [targetChain] at all) makes the
    call throw a [TypeError] with no read issued; the receipt is not looked
    at, so this is also the error for a receipt without withdrawals. *)
Theorem unknown_chain_TypeError client parameters c log :
  portalAddress parameters = None ->
  effective_chain client parameters = Some c ->
  (forall tc, targetChain parameters = Some tc ->
              lookup (Chain.id c) (TargetChain.portal tc) = None) ->
  resolver client parameters log = (Throw TypeError, log).
Proof.
  intros Hp Hc Hl. apply resolver_address_throws.
  unfold resolve_portalAddress. rewrite Hp, Hc.
  destruct (targetChain parameters) as [tc|]; [|reflexivity].
  now rewrite (Hl tc eq_refl).
Qed.

(** X5. A [chain] parameter replaces the client's chain: two clients
    issue the same reads, at the same portal address. *)
Theorem chain_parameter_overrides_client client1 client2 parameters c log :
  chain parameters = Some c ->
  snd (resolver client1 parameters log)
  = snd (resolver client2 parameters log).
Proof.
  intros Hc.
  assert (E : effective_chain client1 parameters
              = effective_chain client2 parameters)
    by (unfold effective_chain; now rewrite Hc).
  destruct (resolve_portalAddress parameters
              (effective_chain client1 parameters)) as [a|e] eqn:Ha.
  - destruct (hd_error (getWithdrawals (receipt parameters))) as [w|] eqn:Hw.
    + rewrite (resolver_decides _ _ _ _ client1 _ a w) by (split; assumption).
      rewrite E in Ha.
      now rewrite (resolver_decides _ _ _ _ client2 _ a w)
        by (split; assumption).
    + rewrite (resolver_no_withdrawal _ _ _ _ client1 _ a) by assumption.
      rewrite E in Ha.
      now rewrite (resolver_no_withdrawal _ _ _ _ client2 _ a) by assumption.
  - rewrite (resolver_address_throws _ _ _ _ client1 _ e) by assumption.
    rewrite E in Ha.
    now rewrite (resolver_address_throws _ _ _ _ client2 _ e) by assumption.
Qed.

(** ** The reads (lines 96-125) *)

(** X6. Once the address is resolved and the receipt has a withdrawal, the
    four reads are issued in the order Q1, Q2, Q3, Q4 however they settle:
    a rejected Q1 does not keep the other three from being issued. *)
Theorem four_reads_however_they_settle client parameters a w log :
  reaches client parameters a w ->
  snd (resolver client parameters log)
  = (log ++ reads parameters a w)%list.
Proof.
  intros Hr. now rewrite (resolver_decides _ _ _ _ _ _ a w).
Qed.

(** X7. A call issues no read or all four, never a part of them. *)
Theorem reads_none_or_all_four client parameters log :
  snd (resolver client parameters log) = log \/
  exists a w,
    reaches client parameters a w /\
    snd (resolver client parameters log)
    = (log ++ reads parameters a w)%list.
Proof.
  destruct (resolve_portalAddress parameters
              (effective_chain client parameters)) as [a|e] eqn:Ha.
  - destruct (hd_error (getWithdrawals (receipt parameters))) as [w|] eqn:Hw.
    + right. exists a, w. split; [split; assumption|].
      rewrite (resolver_decides _ _ _ _ _ _ a w); [reflexivity|].
      split; assumption.
    + left. now rewrite (resolver_no_withdrawal _ _ _ _ _ _ a).
  - left. now rewrite (resolver_address_throws _ _ _ _ _ _ e).
Qed.

(** X8. Only the [withdrawalHash] of the first withdrawal is read: with
    the same collaborators, two extractions whose first withdrawals have
    the same hash give the same completion and the same reads. *)
Theorem withdrawalHash_only
    (getWithdrawals' : TransactionReceipt -> list Withdrawal)
    client parameters w w' log :
  hd_error (getWithdrawals (receipt parameters)) = Some w ->
  hd_error (getWithdrawals' (receipt parameters)) = Some w' ->
  withdrawalHash w = withdrawalHash w' ->
  resolver client parameters log
  = getWithdrawalStatus getWithdrawals' getL2Output readContract
      getTimeToFinalize client parameters log.
Proof.
  intros Hw Hw' Hh.
  destruct (resolve_portalAddress parameters
              (effective_chain client parameters)) as [a|e] eqn:Ha.
  - rewrite (resolver_decides _ _ _ _ _ _ a w) by (split; assumption).
    rewrite (resolver_decides getWithdrawals' _ _ _ _ _ a w')
      by (split; assumption).
    unfold Q2, Q3, Q4, reads. now rewrite Hh.
  - rewrite (resolver_address_throws _ _ _ _ _ _ e) by assumption.
    now rewrite (resolver_address_throws getWithdrawals' _ _ _ _ _ e)
      by assumption.
Qed.

(** ** What an error tells *)

(** X9. [ReceiptContainsNoWithdrawalsError] is thrown only for a receipt
    whose extraction is empty, with the hash of that receipt, and before
    any read. *)
Theorem no_withdrawals_error_inversion client parameters h log :
  fst (resolver client parameters log)
  = Throw (New_ReceiptContainsNoWithdrawalsError h) ->
  h = transactionHash (receipt parameters) /\
  getWithdrawals (receipt parameters) = [] /\
  snd (resolver client parameters log) = log.
Proof.
  destruct (resolve_portalAddress parameters
              (effective_chain client parameters)) as [a|e] eqn:Ha.
  - destruct (hd_error (getWithdrawals (receipt parameters))) as [w|] eqn:Hw.
    + rewrite (resolver_decides _ _ _ _ _ _ a w) by (split; assumption).
      cbn [fst]. intros H.
      apply decision_table_throws in H as (r & Hr & _). discriminate Hr.
    + rewrite (resolver_no_withdrawal _ _ _ _ _ _ a) by assumption.
      cbn. intros [= <-]. repeat split.
      destruct (getWithdrawals (receipt parameters)); [reflexivity|].
      discriminate Hw.
  - rewrite (resolver_address_throws _ _ _ _ _ _ e) by assumption.
    cbn. intros [= ->]. now apply resolve_portalAddress_throws in Ha.
Qed.

(** X10. A call that throws without having issued a read throws one of
    two errors: the [TypeError] of the failed address lookup, or
    [ReceiptContainsNoWithdrawalsError], with the hash of the receipt, for
    an empty extraction.  What a read rejected with, a [TypeError]
    included, is thrown only after the four reads were issued. *)
Theorem throw_before_reads_inversion client parameters e log :
  fst (resolver client parameters log) = Throw e ->
  snd (resolver client parameters log) = log ->
  (e = TypeError /\
   resolve_portalAddress parameters (effective_chain client parameters)
   = Throw TypeError) \/
  (e = New_ReceiptContainsNoWithdrawalsError
         (transactionHash (receipt parameters)) /\
   (exists a,
       resolve_portalAddress parameters (effective_chain client parameters)
       = Normal a) /\
   getWithdrawals (receipt parameters) = []).
Proof.
  destruct (resolve_portalAddress parameters
              (effective_chain client parameters)) as [a|e'] eqn:Ha.
  - destruct (hd_error (getWithdrawals (receipt parameters))) as [w|] eqn:Hw.
    + rewrite (resolver_decides _ _ _ _ _ _ a w) by (split; assumption).
      cbn [fst snd]. intros _ Hl.
      apply (f_equal (@List.length Call)) in Hl.
      rewrite length_app in Hl. cbn in Hl. lia.
    + rewrite (resolver_no_withdrawal _ _ _ _ _ _ a) by assumption.
      cbn. intros [= <-] _. right. split; [reflexivity|].
      split; [now exists a|].
      destruct (getWithdrawals (receipt parameters)); [reflexivity|].
      discriminate Hw.
  - rewrite (resolver_address_throws _ _ _ _ _ _ e') by assumption.
    cbn. intros [= <-] _. left.
    apply resolve_portalAddress_throws in Ha. now subst e'.
Qed.

(** X11. Any other error thrown is the reason one of the four reads
    rejected with: that of Q1 when it is not the recognized condition, or,
    Q1 fulfilled, that of Q2, Q3 or Q4.  The resolver makes no error of its
    own out of a failed read. *)
Theorem thrown_reason_is_a_rejection client parameters r log :
  fst (resolver client parameters log) = Throw (Reason r) ->
  exists a w,
    reaches client parameters a w /\
    ((q1 client parameters = rejected r /\ ~ CheckpointNotYetPublished r) \/
     (exists o, q1 client parameters = fulfilled o) /\
     (q2 client a w = rejected r \/ q3 client a w = rejected r \/
      q4 client parameters w = rejected r)).
Proof.
  destruct (resolve_portalAddress parameters
              (effective_chain client parameters)) as [a|e] eqn:Ha.
  - destruct (hd_error (getWithdrawals (receipt parameters))) as [w|] eqn:Hw.
    + rewrite (resolver_decides _ _ _ _ _ _ a w) by (split; assumption).
      cbn [fst]. intros H. exists a, w. split; [split; assumption|].
      apply decision_table_throws in H as (r' & [= <-] & [[H1 Hn]|H]).
      * left. split; [exact H1|].
        intros Hc. apply is_output_not_proposed_spec in Hc. congruence.
      * right. exact H.
    + rewrite (resolver_no_withdrawal _ _ _ _ _ _ a) by assumption.
      cbn. discriminate.
  - rewrite (resolver_address_throws _ _ _ _ _ _ e) by assumption.
    cbn. intros [= ->]. apply resolve_portalAddress_throws in Ha.
    discriminate Ha.
Qed.

(** ** What a status tells *)

(** X12. ['waiting-to-prove'] is returned exactly when Q1 is rejected with
    the recognized condition; a fulfilled Q1 never gives it. *)
Theorem waiting_to_prove_iff client parameters a w :
  reaches client parameters a w ->
  (fst (run' client parameters) = Normal "waiting-to-prove" <->
   exists e, q1 client parameters = rejected e /\
             CheckpointNotYetPublished e).
Proof.
  intros Hr. rewrite (run_decides _ _ _ _ _ _ a w Hr).
  table client parameters a w; split;
    try discriminate; try (intros (? & [=] & _); fail).
  - intros _. exists e1. split; [reflexivity|].
    now apply is_output_not_proposed_spec.
  - reflexivity.
  - intros (e' & [= <-] & Hc). apply is_output_not_proposed_spec in Hc.
    congruence.
Qed.

(** X13. ['ready-to-prove'] is returned exactly when the four reads are
    fulfilled and the proof timestamp is zero, whatever the finalization
    record and the window are. *)
Theorem ready_to_prove_iff client parameters a w :
  reaches client parameters a w ->
  (fst (run' client parameters) = Normal "ready-to-prove" <->
   exists o root idx fin t,
     q1 client parameters = fulfilled o /\
     q2 client a w = fulfilled (root, 0, idx) /\
     q3 client a w = fulfilled fin /\
     q4 client parameters w = fulfilled t).
Proof.
  intros Hr. rewrite (run_decides _ _ _ _ _ _ a w Hr).
  table client parameters a w; split; try discriminate;
    try (intros (? & ? & ? & ? & ? & H1 & H2 & H3 & H4); congruence).
  intros _. subst ts. do 5 eexists. repeat split; reflexivity.
Qed.

(** X14. ['finalized'] is returned exactly when the four reads are
    fulfilled, the proof timestamp is not zero and the finalization record
    is true. *)
Theorem finalized_iff client parameters a w :
  reaches client parameters a w ->
  (fst (run' client parameters) = Normal "finalized" <->
   exists o root ts idx t,
     q1 client parameters = fulfilled o /\
     q2 client a w = fulfilled (root, ts, idx) /\ ts <> 0 /\
     q3 client a w = fulfilled true /\
     q4 client parameters w = fulfilled t).
Proof.
  intros Hr. rewrite (run_decides _ _ _ _ _ _ a w Hr).
  table client parameters a w; split; try discriminate;
    try (intros (? & ? & ? & ? & ? & H1 & H2 & Hn & H3 & H4); congruence).
  intros _. do 5 eexists. repeat split; try reflexivity. assumption.
Qed.

(** X15. ['waiting-to-finalize'] is returned exactly when the four reads
    are fulfilled, the proof timestamp is not zero, the finalization record
    is false and [seconds > 0]. *)
Theorem waiting_to_finalize_iff client parameters a w :
  reaches client parameters a w ->
  (fst (run' client parameters) = Normal "waiting-to-finalize" <->
   exists o root ts idx t,
     q1 client parameters = fulfilled o /\
     q2 client a w = fulfilled (root, ts, idx) /\ ts <> 0 /\
     q3 client a w = fulfilled false /\
     q4 client parameters w = fulfilled t /\
     (0 <? seconds t)%float = true).
Proof.
  intros Hr. rewrite (run_decides _ _ _ _ _ _ a w Hr).
  table client parameters a w; split; try discriminate;
    try (intros (? & ? & ? & ? & ? & H1 & H2 & Hn & H3 & H4 & H5);
         congruence).
  intros _. do 5 eexists. repeat split; try reflexivity; assumption.
Qed.

(** X16. ['ready-to-finalize'] is returned exactly when the four reads are
    fulfilled, the proof timestamp is not zero, the finalization record is
    false and [seconds > 0] does not hold. *)
Theorem ready_to_finalize_iff client parameters a w :
  reaches client parameters a w ->
  (fst (run' client parameters) = Normal "ready-to-finalize" <->
   exists o root ts idx t,
     q1 client parameters = fulfilled o /\
     q2 client a w = fulfilled (root, ts, idx) /\ ts <> 0 /\
     q3 client a w = fulfilled false /\
     q4 client parameters w = fulfilled t /\
     (0 <? seconds t)%float = false).
Proof.
  intros Hr. rewrite (run_decides _ _ _ _ _ _ a w Hr).
  table client parameters a w; split; try discriminate;
    try (intros (? & ? & ? & ? & ? & H1 & H2 & Hn & H3 & H4 & H5);
         congruence).
  intros _. do 5 eexists. repeat split; try reflexivity; assumption.
Qed.

(** X17. A window that is not a number counts as elapsed: with a proven,
    not finalized withdrawal, [seconds = NaN] gives ['ready-to-finalize']. *)
Theorem nan_window_ready_to_finalize
    client parameters a w o root ts idx t :
  reaches client parameters a w ->
  q1 client parameters = fulfilled o ->
  q2 client a w = fulfilled (root, ts, idx) ->
  ts <> 0 ->
  q3 client a w = fulfilled false ->
  q4 client parameters w = fulfilled t ->
  is_nan (seconds t) = true ->
  fst (run' client parameters) = Normal "ready-to-finalize".
Proof.
  intros Hr H1 H2 Hts H3 H4 Hn.
  rewrite (run_decides _ _ _ _ _ _ a w Hr), H1, H2, H3, H4. cbn.
  apply Z.eqb_neq in Hts. rewrite Hts.
  now rewrite (nan_not_gt _ Hn).
Qed.

End Coverage.

(** ** On the test data *)

Lemma explicit_portalAddress_used_witness :
  snd (Stub.run (Stub.settled 1702377887 false 120%float) Stub.client
         (Fixture.explicit_parameters [Stub.log1]))
  = reads (Fixture.explicit_parameters [Stub.log1]) Fixture.explicit_portal
      Stub.withdrawal1.
Proof.
  set (s := Stub.settled 1702377887 false 120%float).
  apply (explicit_portalAddress_used Stub.getWithdrawals (Stub.getL2Output s)
           (Stub.readContract s) (Stub.getTimeToFinalize s) Stub.client
           (Fixture.explicit_parameters [Stub.log1]) Fixture.explicit_portal
           Stub.withdrawal1 []);
    [reflexivity | discriminate | reflexivity].
Defined.

Lemma chain_portal_used_witness :
  snd (Stub.run (Stub.settled 1702377887 false 120%float)
         Fixture.goerli_client
         (Fixture.parameters_on Stub.mainnet [Stub.log1]))
  = reads (Fixture.parameters_on Stub.mainnet [Stub.log1]) Stub.portal1
      Stub.withdrawal1.
Proof.
  set (s := Stub.settled 1702377887 false 120%float).
  apply (chain_portal_used Stub.getWithdrawals (Stub.getL2Output s)
           (Stub.readContract s) (Stub.getTimeToFinalize s)
           Fixture.goerli_client
           (Fixture.parameters_on Stub.mainnet [Stub.log1]) Stub.mainnet
           Stub.optimism {| ChainContract.address := Stub.portal1 |}
           Stub.withdrawal1 []);
    reflexivity.
Defined.

Lemma first_portal_used_witness :
  snd (Stub.run (Stub.settled 1702377887 false 120%float)
         Fixture.chainless_client (Stub.parameters [Stub.log1]))
  = reads (Stub.parameters [Stub.log1]) Stub.portal1 Stub.withdrawal1.
Proof.
  set (s := Stub.settled 1702377887 false 120%float).
  apply (first_portal_used Stub.getWithdrawals (Stub.getL2Output s)
           (Stub.readContract s) (Stub.getTimeToFinalize s)
           Fixture.chainless_client (Stub.parameters [Stub.log1])
           Stub.optimism 1 {| ChainContract.address := Stub.portal1 |} []
           Stub.withdrawal1 []);
    reflexivity.
Defined.

Lemma unknown_chain_TypeError_witness :
  Stub.run (Stub.settled 1702377887 false 120%float)
    Fixture.goerli_client (Stub.parameters [Stub.log1])
  = (Throw TypeError, []) /\
  Stub.run (Stub.settled 1702377887 false 120%float)
    Fixture.goerli_client (Stub.parameters [])
  = (Throw TypeError, []).
Proof.
  set (s := Stub.settled 1702377887 false 120%float).
  split.
  - apply (unknown_chain_TypeError Stub.getWithdrawals (Stub.getL2Output s)
             (Stub.readContract s) (Stub.getTimeToFinalize s)
             Fixture.goerli_client (Stub.parameters [Stub.log1])
             Stub.goerli []);
      [reflexivity | reflexivity | intros tc [= <-]; reflexivity].
  - apply (unknown_chain_TypeError Stub.getWithdrawals (Stub.getL2Output s)
             (Stub.readContract s) (Stub.getTimeToFinalize s)
             Fixture.goerli_client (Stub.parameters []) Stub.goerli []);
      [reflexivity | reflexivity | intros tc [= <-]; reflexivity].
Defined.

Lemma chain_parameter_overrides_client_witness :
  snd (Stub.run (Stub.settled 1702377887 false 120%float)
         Fixture.goerli_client
         (Fixture.parameters_on Stub.mainnet [Stub.log1]))
  = snd (Stub.run (Stub.settled 1702377887 false 120%float)
           Fixture.chainless_client
           (Fixture.parameters_on Stub.mainnet [Stub.log1])).
Proof.
  set (s := Stub.settled 1702377887 false 120%float).
  apply (chain_parameter_overrides_client Stub.getWithdrawals
           (Stub.getL2Output s) (Stub.readContract s)
           (Stub.getTimeToFinalize s) Fixture.goerli_client
           Fixture.chainless_client
           (Fixture.parameters_on Stub.mainnet [Stub.log1]) Stub.mainnet []).
  reflexivity.
Defined.

Lemma four_reads_however_they_settle_witness :
  snd (Stub.run (Stub.output_fails (Stub.revert output_not_proposed))
         Stub.client (Stub.parameters [Stub.log1]))
  = reads (Stub.parameters [Stub.log1]) Stub.portal1 Stub.withdrawal1.
Proof.
  set (s := Stub.output_fails (Stub.revert output_not_proposed)).
  apply (four_reads_however_they_settle Stub.getWithdrawals
           (Stub.getL2Output s) (Stub.readContract s)
           (Stub.getTimeToFinalize s) Stub.client
           (Stub.parameters [Stub.log1]) Stub.portal1 Stub.withdrawal1 []).
  split; reflexivity.
Defined.

Lemma withdrawalHash_only_witness :
  Stub.run (Stub.settled 1702377887 false 120%float) Stub.client
    (Stub.parameters [Stub.log1; Stub.log2])
  = run (Fixture.getWithdrawals_nonce 7)
      (Stub.getL2Output (Stub.settled 1702377887 false 120%float))
      (Stub.readContract (Stub.settled 1702377887 false 120%float))
      (Stub.getTimeToFinalize (Stub.settled 1702377887 false 120%float))
      Stub.client (Stub.parameters [Stub.log1; Stub.log2]).
Proof.
  set (s := Stub.settled 1702377887 false 120%float).
  eapply (withdrawalHash_only Stub.getWithdrawals (Stub.getL2Output s)
            (Stub.readContract s) (Stub.getTimeToFinalize s)
            (Fixture.getWithdrawals_nonce 7) Stub.client
            (Stub.parameters [Stub.log1; Stub.log2]) _ _ []);
    reflexivity.
Defined.

Lemma no_withdrawals_error_inversion_witness :
  transactionHash (Stub.receipt_of [])
  = transactionHash (receipt (Stub.parameters [])) /\
  Stub.getWithdrawals (receipt (Stub.parameters [])) = [] /\
  snd (Stub.run (Stub.settled 1702377887 false 120%float) Stub.client
         (Stub.parameters [])) = [].
Proof.
  set (s := Stub.settled 1702377887 false 120%float).
  apply (no_withdrawals_error_inversion Stub.getWithdrawals
           (Stub.getL2Output s) (Stub.readContract s)
           (Stub.getTimeToFinalize s) Stub.client (Stub.parameters [])
           (transactionHash (Stub.receipt_of [])) []).
  reflexivity.
Defined.

Lemma throw_before_reads_inversion_witness :
  (TypeError = TypeError /\
   resolve_portalAddress (Stub.parameters [Stub.log1])
     (effective_chain Fixture.goerli_client (Stub.parameters [Stub.log1]))
   = Throw TypeError) \/
  (TypeError
   = New_ReceiptContainsNoWithdrawalsError
       (transactionHash (receipt (Stub.parameters [Stub.log1]))) /\
   (exists a,
       resolve_portalAddress (Stub.parameters [Stub.log1])
         (effective_chain Fixture.goerli_client
            (Stub.parameters [Stub.log1]))
       = Normal a) /\
   Stub.getWithdrawals (receipt (Stub.parameters [Stub.log1])) = []).
Proof.
  set (s := Stub.settled 1702377887 false 120%float).
  apply (throw_before_reads_inversion Stub.getWithdrawals
           (Stub.getL2Output s) (Stub.readContract s)
           (Stub.getTimeToFinalize s) Fixture.goerli_client
           (Stub.parameters [Stub.log1]) TypeError []);
    reflexivity.
Defined.

Lemma thrown_reason_is_a_rejection_witness :
  exists a w,
    reaches_reads Stub.getWithdrawals Stub.client
      (Stub.parameters [Stub.log1]) a w /\
    ((Stub.output (Stub.only_output_fails Stub.network_error)
      = rejected Stub.network_error /\
      ~ CheckpointNotYetPublished Stub.network_error) \/
     (exists o, Stub.output (Stub.only_output_fails Stub.network_error)
                = fulfilled o) /\
     (Stub.proven (Stub.only_output_fails Stub.network_error)
      = rejected Stub.network_error \/
      Stub.finalized (Stub.only_output_fails Stub.network_error)
      = rejected Stub.network_error \/
      Stub.timeToFinalize (Stub.only_output_fails Stub.network_error)
      = rejected Stub.network_error)).
Proof.
  set (s := Stub.only_output_fails Stub.network_error).
  apply (thrown_reason_is_a_rejection Stub.getWithdrawals
           (Stub.getL2Output s) (Stub.readContract s)
           (Stub.getTimeToFinalize s) Stub.client
           (Stub.parameters [Stub.log1]) Stub.network_error []).
  reflexivity.
Defined.

Lemma waiting_to_prove_iff_witness :
  fst (Stub.run (Stub.output_fails (Stub.revert output_not_proposed))
         Stub.client (Stub.parameters [Stub.log1]))
  = Normal "waiting-to-prove".
Proof.
  at_stub_cases waiting_to_prove_iff
    (Stub.output_fails (Stub.revert output_not_proposed)) [Stub.log1] Honly Hif.
  apply Hif. eexists. split; [reflexivity|].
  do 3 eexists. conj_refl. reflexivity.
Defined.

Lemma ready_to_prove_iff_witness :
  fst (Stub.run (Stub.settled 0 true 120%float)
         Stub.client (Stub.parameters [Stub.log1]))
  = Normal "ready-to-prove".
Proof.
  at_stub_cases ready_to_prove_iff
    (Stub.settled 0 true 120%float) [Stub.log1] Honly Hif.
  apply Hif. do 5 eexists. conj_refl. reflexivity.
Defined.

Lemma finalized_iff_witness :
  fst (Stub.run (Stub.settled 1702377887 true 0%float)
         Stub.client (Stub.parameters [Stub.log1]))
  = Normal "finalized".
Proof.
  at_stub_cases finalized_iff
    (Stub.settled 1702377887 true 0%float) [Stub.log1] Honly Hif.
  apply Hif. do 5 eexists. conj_refl. split; [discriminate|]. conj_refl. reflexivity.
Defined.

Lemma waiting_to_finalize_iff_witness :
  fst (Stub.run (Stub.settled 1702377887 false 120%float)
         Stub.client (Stub.parameters [Stub.log1]))
  = Normal "waiting-to-finalize".
Proof.
  at_stub_cases waiting_to_finalize_iff
    (Stub.settled 1702377887 false 120%float) [Stub.log1] Honly Hif.
  apply Hif. do 5 eexists. conj_refl. split; [discriminate|]. conj_refl. reflexivity.
Defined.

Lemma ready_to_finalize_iff_witness :
  fst (Stub.run (Stub.settled 1702377887 false (-0)%float)
         Stub.client (Stub.parameters [Stub.log1]))
  = Normal "ready-to-finalize".
Proof.
  at_stub_cases ready_to_finalize_iff
    (Stub.settled 1702377887 false (-0)%float) [Stub.log1] Honly Hif.
  apply Hif. do 5 eexists. conj_refl. split; [discriminate|]. conj_refl. reflexivity.
Defined.

Lemma nan_window_ready_to_finalize_witness :
  is_nan nan = true /\
  fst (Stub.run (Stub.settled 1702377887 false nan)
         Stub.client (Stub.parameters [Stub.log1]))
  = Normal "ready-to-finalize".
Proof.
  split; [reflexivity|].
  at_stub nan_window_ready_to_finalize (Stub.settled 1702377887 false nan)
    [Stub.log1]; try reflexivity; [split; reflexivity | discriminate].
Defined.
